(** * Mount-Maker: the mount geometry calculator, its orientation toggle
      and the advisory mapping, embedded from the TypeScript sources.

    Number model.  The TypeScript type [number] is the IEEE-754 binary64
    float.  The file embeds the calculator twice.

    - With [number] the exact rationals [Q] (the top level of the file):
      every literal of the sources is a rational and no operation
      rounds.  This embedding carries the statements made of the same
      operations, comparisons and moves as the code, which hold on
      doubles as they hold on rationals, and the identities that are
      stated for exact arithmetic.
    - With [number] Rocq's primitive binary64 floats (the module
      [Double]): every literal is the double JavaScript reads it as and
      every operation rounds as JavaScript rounds it.  This embedding
      carries what depends on the rounding: the values the code
      returns, and the inputs at which an exact identity fails. *)

Set Warnings "-register-all".
Set Warnings "-inexact-float".

From Stdlib Require Import QArith Qminmax Lqa.
From Stdlib Require Import String List Bool.
From Stdlib Require Import ZArith Floats.
Import ListNotations.

Local Open Scope string_scope.
Local Open Scope Q_scope.

(** ** types.ts *)

Definition number : Type := Q.

Inductive Unit : Type := mm | inch.

Record Dimensions : Type := mkDimensions {
  width : number;
  height : number
}.

Record BorderConfig : Type := mkBorderConfig {
  top : number;
  bottom : number;
  left : number;
  right : number
}.

Inductive Mode : Type := FixedBoard | CustomBorders.

Inductive Orientation : Type := portrait | landscape.

Record MountConfig : Type := mkMountConfig {
  photoWidth : number;
  photoHeight : number;
  photoBorder : number;
  underlap : number;
  mountOffset : number;
  minBorderWidth : number;
  boardPreset : string;
  customBoardSize : Dimensions;
  mode : Mode;
  manualBorders : BorderConfig;
  orientation : Orientation
}.

(** [PaperSize] has its own name space: its [width] and [height] would
    otherwise clash with the fields of [Dimensions]. *)
Module PaperSize.
Record t : Type := mk {
  name : string;
  width : number;
  height : number
}.
End PaperSize.

(** ** constants.ts *)

Definition MM_PER_INCH : number := 25.4.

Definition PAPER_SIZES : list PaperSize.t :=
  [ PaperSize.mk "A0" 841 1189;
    PaperSize.mk "A1" 594 841;
    PaperSize.mk "A2" 420 594;
    PaperSize.mk "A3" 297 420;
    PaperSize.mk "A4" 210 297;
    PaperSize.mk "A5" 148 210;
    PaperSize.mk "Letter" 215.9 279.4;
    PaperSize.mk "Legal" 215.9 355.6;
    PaperSize.mk "Tabloid" 279.4 431.8 ].

(** ** The JavaScript built-ins the calculator calls *)

Definition Math_max (a b : number) : number := Qmax a b.
Definition Math_min (a b : number) : number := Qmin a b.

(** [Array.prototype.find]: the first element satisfying the predicate,
    [None] standing for [undefined]. *)
Definition Array_find {A : Type} (p : A -> bool) (xs : list A) : option A :=
  List.find p xs.

(** ** App.tsx: the default configuration (lines 68-80) *)

Definition defaultConfig : MountConfig :=
  {| photoWidth := 203.2;
     photoHeight := 254;
     photoBorder := 6.35;
     underlap := 12.7;
     mountOffset := 7.62;
     minBorderWidth := 50.8;
     boardPreset := "A2";
     customBoardSize := {| width := 420; height := 594 |};
     mode := FixedBoard;
     manualBorders := {| top := 50; bottom := 50; left := 50; right := 50 |};
     orientation := portrait |}.

(** ** App.tsx: the calculations (lines 95-152) *)

Record Position : Type := mkPosition {
  x : number;
  y : number
}.

(** Step 1, lines 95-98. *)
Definition apertureSize (config : MountConfig) : Dimensions :=
  {| width := photoWidth config + (photoBorder config * 2);
     height := photoHeight config + (photoBorder config * 2) |}.

(** Lines 119-125: the global orientation applied to a preset's pair. *)
Definition orientPreset (o : Orientation) (pW pH : number) : number * number :=
  match o with
  | landscape => (Math_max pW pH, Math_min pW pH)
  | portrait => (Math_min pW pH, Math_max pW pH)
  end.

(** Lines 109-126: the pair [(bWidth, bHeight)] of the FixedBoard branch. *)
Definition fixedBoardSize (config : MountConfig) : number * number :=
  if (boardPreset config =? "Custom")%string then
    (width (customBoardSize config), height (customBoardSize config))
  else
    let preset :=
      Array_find (fun p => (PaperSize.name p =? boardPreset config)%string)
                 PAPER_SIZES in
    let pW := match preset with Some p => PaperSize.width p | None => 420 end in
    let pH := match preset with Some p => PaperSize.height p | None => 594 end in
    orientPreset (orientation config) pW pH.

Record BoardGeometry : Type := mkBoardGeometry {
  boardSize : Dimensions;
  aperturePosition : Position
}.

(** Step 2, lines 101-152: the second [useMemo], a function of the config
    and of the aperture size computed by the first one. *)
Definition boardGeometry (config : MountConfig) (apertureSize : Dimensions)
  : BoardGeometry :=
  let '(bWidth, bHeight, aX, aY) :=
    match mode config with
    | FixedBoard =>
        let '(bWidth, bHeight) := fixedBoardSize config in
        let totalMarginX := bWidth - width apertureSize in
        let totalMarginY := bHeight - height apertureSize in
        let aX := totalMarginX / 2 in
        let aY := (totalMarginY / 2) - mountOffset config in
        (bWidth, bHeight, aX, aY)
    | CustomBorders =>
        let '(mkBorderConfig top bottom left right) := manualBorders config in
        let bWidth := width apertureSize + left + right in
        let bHeight := height apertureSize + top + bottom in
        (bWidth, bHeight, left, top)
    end in
  {| boardSize := {| width := bWidth; height := bHeight |};
     aperturePosition := {| x := aX; y := aY |} |}.

(** What one render derives from the stored config. *)
Record Geometry : Type := mkGeometry {
  g_boardSize : Dimensions;
  g_aperturePosition : Position;
  g_apertureSize : Dimensions
}.

Definition calculate (config : MountConfig) : Geometry :=
  let a := apertureSize config in
  let bg := boardGeometry config a in
  {| g_boardSize := boardSize bg;
     g_aperturePosition := aperturePosition bg;
     g_apertureSize := a |}.

(** Lines 359-360: the top and bottom margins shown for the FixedBoard
    mode (before their conversion for display). *)
Definition topMargin (g : Geometry) : number := y (g_aperturePosition g).

Definition bottomMargin (g : Geometry) : number :=
  height (g_boardSize g) - y (g_aperturePosition g) - height (g_apertureSize g).

(** ** App.tsx: the orientation toggle (lines 165-187) *)

Definition toggleOrientation (prev : MountConfig) : MountConfig :=
  let newOrientation :=
    match orientation prev with portrait => landscape | _ => portrait end in
  let newPhotoWidth := photoHeight prev in
  let newPhotoHeight := photoWidth prev in
  let newCustomBoard :=
    {| width := height (customBoardSize prev);
       height := width (customBoardSize prev) |} in
  {| photoWidth := newPhotoWidth;
     photoHeight := newPhotoHeight;
     photoBorder := photoBorder prev;
     underlap := underlap prev;
     mountOffset := mountOffset prev;
     minBorderWidth := minBorderWidth prev;
     boardPreset := boardPreset prev;
     customBoardSize := newCustomBoard;
     mode := mode prev;
     manualBorders := manualBorders prev;
     orientation := newOrientation |}.

(** Lines 157-159, [updateConfig] at the key ['mountOffset']: the spread
    [{ ...prev, mountOffset: value }]. *)
Definition updateConfig_mountOffset (prev : MountConfig) (value : number)
  : MountConfig :=
  {| photoWidth := photoWidth prev;
     photoHeight := photoHeight prev;
     photoBorder := photoBorder prev;
     underlap := underlap prev;
     mountOffset := value;
     minBorderWidth := minBorderWidth prev;
     boardPreset := boardPreset prev;
     customBoardSize := customBoardSize prev;
     mode := mode prev;
     manualBorders := manualBorders prev;
     orientation := orientation prev |}.

(** ** services/geminiService.ts *)

Module Advisory.

(** The values [JSON.parse] can return, and [undefined] for an absent
    property.  An [object] lists its own properties, each key once. *)
Inductive value : Type :=
| undefined
| null
| boolean (b : bool)
| num (n : number)
| str (s : string)
| array (items : list value)
| object (props : list (string * value)).

Inductive Error : Type :=
| ErrorMsg (message : string)   (* [new Error(message)] *)
| TypeError                     (* a property read on [null] or [undefined] *)
| OtherError (what : string).   (* thrown by the client or by [JSON.parse] *)

(** A computation that returns or throws. *)
Definition attempt (A : Type) : Type := (Error + A)%type.

Definition ret {A : Type} (a : A) : attempt A := inr a.
Definition throw {A : Type} (e : Error) : attempt A := inl e.
Definition bind {A B : Type} (m : attempt A) (k : A -> attempt B)
  : attempt B :=
  match m with inl e => inl e | inr a => k a end.

Notation "x <- m ;; k" := (bind m (fun x => k))
  (at level 61, m at next level, right associativity).

(** JavaScript truthiness, as [!v] and [v || w] test it. *)
Definition truthy (v : value) : bool :=
  match v with
  | undefined | null => false
  | boolean b => b
  | num n => negb (Qeq_bool n 0)
  | str s => negb (s =? "")%string
  | array _ | object _ => true
  end.

Fixpoint lookup (key : string) (props : list (string * value)) : value :=
  match props with
  | [] => undefined
  | (k, v) :: rest => if (k =? key)%string then v else lookup key rest
  end.

(** The property read [v.key], for the keys this service reads
    ([suggestion], [reasoning], [suggestedValues], [photoBorder], ...):
    none of them is an index, [length] or a prototype member, so on a
    boolean, number, string or array the read gives [undefined]. *)
Definition get (v : value) (key : string) : attempt value :=
  match v with
  | undefined | null => throw TypeError
  | object props => ret (lookup key props)
  | _ => ret undefined
  end.

(** [manualBorders] and [suggestedConfig] as the service builds them:
    the fields hold whatever the response held. *)
Record Borders : Type := mkBorders {
  top : value;
  bottom : value;
  left : value;
  right : value
}.

Record SuggestedConfig : Type := mkSuggestedConfig {
  photoBorder : value;
  mountOffset : value;
  manualBorders : Borders;
  mode : Mode
}.

Record AIAdvice : Type := mkAIAdvice {
  suggestion : value;
  reasoning : value;
  suggestedConfig : option SuggestedConfig
}.

(** Lines 4-10: [process.env.API_KEY] is a string or absent; the client
    itself is not modelled. *)
Definition getClient (API_KEY : option string) : attempt unit :=
  match API_KEY with
  | None => throw (ErrorMsg "API Key not found")
  | Some k =>
      if (k =? "")%string then throw (ErrorMsg "API Key not found")
      else ret tt
  end.

(** Lines 65-84: from the parsed [result] to the advice. *)
Definition adviceOfResult (result : value) : attempt AIAdvice :=
  suggestedValues <- get result "suggestedValues" ;;
  if negb (truthy suggestedValues) then
    throw (ErrorMsg "Invalid response from AI")
  else
    suggestion <- get result "suggestion" ;;
    reasoning <- get result "reasoning" ;;
    photoBorder <- get suggestedValues "photoBorder" ;;
    mountOffset <- get suggestedValues "mountOffset" ;;
    topBorder <- get suggestedValues "topBorder" ;;
    bottomBorder <- get suggestedValues "bottomBorder" ;;
    sideBorderL <- get suggestedValues "sideBorder" ;;
    sideBorderR <- get suggestedValues "sideBorder" ;;
    ret {| suggestion := suggestion;
           reasoning := reasoning;
           suggestedConfig := Some
             {| photoBorder := photoBorder;
                mountOffset := mountOffset;
                manualBorders :=
                  {| top := topBorder;
                     bottom := bottomBorder;
                     left := sideBorderL;
                     right := sideBorderR |};
                mode := CustomBorders |} |}.

(** Line 63: [response.text || '{}']. *)
Definition textOrEmptyObject (response : option string) : string :=
  match response with
  | Some t => if (t =? "")%string then "{}" else t
  | None => "{}"
  end.

(** Lines 12-90.  [response] is what [ai.models.generateContent]
    settled to: an error, or a response whose [text] is a string or
    absent.  [JSON_parse] stands for the built-in parser.  The [catch]
    block logs and rethrows the same error. *)
Definition getMountAdvice
    (JSON_parse : string -> attempt value)
    (API_KEY : option string)
    (response : attempt (option string)) : attempt AIAdvice :=
  _ <- getClient API_KEY ;;
  response <- response ;;
  result <- JSON_parse (textOrEmptyObject response) ;;
  adviceOfResult result.

(** A response in the shape the request's schema asks for. *)
Definition sampleResult : value :=
  object
    [ ("suggestion", str "Use a weighted bottom");
      ("reasoning", str "Visual balance");
      ("suggestedValues",
        object [ ("photoBorder", num 0.25);
                 ("mountOffset", num 0.3);
                 ("topBorder", num 2);
                 ("bottomBorder", num 2.5);
                 ("sideBorder", num 2) ]) ].

(** Stand-ins for the parser on two inputs: the text of
    [sampleResult], and the text of the empty object. *)
Definition parseSample (_ : string) : attempt value := ret sampleResult.
Definition parseEmptyObject (_ : string) : attempt value := ret (object []).

End Advisory.

(** ** constants.ts: the common photo sizes (lines 17-26)

    The names of the inch sizes end in the double-quote character. *)

Definition inchName (s : string) : string :=
  s ++ String (Ascii.ascii_of_nat 34) EmptyString.

Definition COMMON_PHOTO_SIZES : list PaperSize.t :=
  [ PaperSize.mk (inchName "4x6") 101.6 152.4;
    PaperSize.mk (inchName "5x7") 127 177.8;
    PaperSize.mk (inchName "8x10") 203.2 254;
    PaperSize.mk (inchName "11x14") 279.4 355.6;
    PaperSize.mk (inchName "12x16") 304.8 406.4;
    PaperSize.mk (inchName "16x20") 406.4 508;
    PaperSize.mk "A4" 210 297;
    PaperSize.mk "A3" 297 420 ].

(** ** App.tsx: the other updates of the config *)

(** The comparison [a > b] of two numbers. *)
Definition gtb (a b : number) : bool := negb (Qle_bool a b).

(** Lines 157-159, [updateConfig] at the keys ['photoWidth'],
    ['photoHeight'] and ['boardPreset']. *)
Definition updateConfig_photoWidth (prev : MountConfig) (value : number)
  : MountConfig :=
  {| photoWidth := value;
     photoHeight := photoHeight prev;
     photoBorder := photoBorder prev;
     underlap := underlap prev;
     mountOffset := mountOffset prev;
     minBorderWidth := minBorderWidth prev;
     boardPreset := boardPreset prev;
     customBoardSize := customBoardSize prev;
     mode := mode prev;
     manualBorders := manualBorders prev;
     orientation := orientation prev |}.

Definition updateConfig_photoHeight (prev : MountConfig) (value : number)
  : MountConfig :=
  {| photoWidth := photoWidth prev;
     photoHeight := value;
     photoBorder := photoBorder prev;
     underlap := underlap prev;
     mountOffset := mountOffset prev;
     minBorderWidth := minBorderWidth prev;
     boardPreset := boardPreset prev;
     customBoardSize := customBoardSize prev;
     mode := mode prev;
     manualBorders := manualBorders prev;
     orientation := orientation prev |}.

Definition updateConfig_boardPreset (prev : MountConfig) (value : string)
  : MountConfig :=
  {| photoWidth := photoWidth prev;
     photoHeight := photoHeight prev;
     photoBorder := photoBorder prev;
     underlap := underlap prev;
     mountOffset := mountOffset prev;
     minBorderWidth := minBorderWidth prev;
     boardPreset := value;
     customBoardSize := customBoardSize prev;
     mode := mode prev;
     manualBorders := manualBorders prev;
     orientation := orientation prev |}.

(** Lines 251-259 and, word for word, lines 322-328: a stored pair put
    in the current orientation by a swap. *)
Definition swapForOrientation (o : Orientation) (w h : number)
  : number * number :=
  match o with
  | landscape => if gtb h w then (h, w) else (w, h)
  | portrait => if gtb w h then (h, w) else (w, h)
  end.

(** Lines 247-263: the [onChange] handler of the photo preset list.
    [config] is the rendered config, which the two updates start from. *)
Definition selectPhotoPreset (config : MountConfig) (value : string)
  : MountConfig :=
  match Array_find (fun p => (PaperSize.name p =? value)%string)
                   COMMON_PHOTO_SIZES with
  | Some s =>
      let '(w, h) :=
        swapForOrientation (orientation config)
          (PaperSize.width s) (PaperSize.height s) in
      updateConfig_photoHeight (updateConfig_photoWidth config w) h
  | None => config
  end.

(** ** The advisor component (src/unnamed/part_000) *)

Module AIAdvisor.

Record State : Type := mkState {
  description : string;
  loading : bool;
  advice : option Advisory.AIAdvice;
  error : option string
}.

(** Lines 18-30: [handleAskAI], from the state it is called in to the
    state it leaves when the request has settled.  [trim] stands for
    [String.prototype.trim]; the other parameters are those of
    [Advisory.getMountAdvice]. *)
Definition handleAskAI
    (trim : string -> string)
    (JSON_parse : string -> Advisory.attempt Advisory.value)
    (API_KEY : option string)
    (response : Advisory.attempt (option string))
    (st : State) : State :=
  if (trim (description st) =? "")%string then st
  else
    match Advisory.getMountAdvice JSON_parse API_KEY response with
    | inr result =>
        {| description := description st;
           loading := false;
           advice := Some result;
           error := None |}
    | inl _ =>
        {| description := description st;
           loading := false;
           advice := advice st;
           error := Some "Failed to get advice. Ensure API key is set." |}
    end.

(** Lines 67-74: the "Apply Suggested Dimensions" button is rendered
    when there is an advice whose [suggestedConfig] is present. *)
Definition showsApplyButton (st : State) : bool :=
  match advice st with
  | Some a =>
      match Advisory.suggestedConfig a with Some _ => true | None => false end
  | None => false
  end.

End AIAdvisor.

(** ** The calculator on doubles

    App.tsx, lines 68-80, 95-152, 157-159, 320-331 and 359-360, and the
    paper-size table of constants.ts, once more: [number] is now the
    binary64 float, and [+], [-], [*], [/] and the comparisons are the
    IEEE-754 operations of JavaScript. *)

Module Double.

Local Open Scope float_scope.

Definition number : Type := float.

(** The comparison [a == b] of two numbers. *)
Definition same (a b : number) : Prop := (a =? b) = true.

Record Dimensions : Type := mkDimensions {
  width : number;
  height : number
}.

Record BorderConfig : Type := mkBorderConfig {
  top : number;
  bottom : number;
  left : number;
  right : number
}.

Record MountConfig : Type := mkMountConfig {
  photoWidth : number;
  photoHeight : number;
  photoBorder : number;
  underlap : number;
  mountOffset : number;
  minBorderWidth : number;
  boardPreset : string;
  customBoardSize : Dimensions;
  mode : Mode;
  manualBorders : BorderConfig;
  orientation : Orientation
}.

Module PaperSize.
Record t : Type := mk {
  name : string;
  width : number;
  height : number
}.
End PaperSize.

Definition MM_PER_INCH : number := 25.4.

Definition PAPER_SIZES : list PaperSize.t :=
  [ PaperSize.mk "A0" 841 1189;
    PaperSize.mk "A1" 594 841;
    PaperSize.mk "A2" 420 594;
    PaperSize.mk "A3" 297 420;
    PaperSize.mk "A4" 210 297;
    PaperSize.mk "A5" 148 210;
    PaperSize.mk "Letter" 215.9 279.4;
    PaperSize.mk "Legal" 215.9 355.6;
    PaperSize.mk "Tabloid" 279.4 431.8 ].

(** [Math.max] and [Math.min]: NaN when an argument is NaN, and +0
    above -0. *)
Definition Math_max (a b : number) : number :=
  if is_nan a || is_nan b then nan
  else if a <? b then b
  else if b <? a then a
  else if get_sign a then b else a.

Definition Math_min (a b : number) : number :=
  if is_nan a || is_nan b then nan
  else if a <? b then a
  else if b <? a then b
  else if get_sign a then a else b.

(** [Math.round]: the integer closest to the number, the larger one on
    a tie; [None] stands for NaN and the infinities, which [Math.round]
    returns as they are.  The integer is computed from the sign, the
    mantissa and the exponent of the double. *)
Definition Math_round (a : number) : option Z :=
  match Prim2SF a with
  | S754_zero _ => Some 0%Z
  | S754_finite s m e =>
      let sm := if s then Z.neg m else Z.pos m in
      if (0 <=? e)%Z then Some (sm * 2 ^ e)%Z
      else
        let d := (2 ^ (- e))%Z in
        Some ((2 * sm + d) / (2 * d))%Z
  | S754_infinity _ | S754_nan => None
  end.

(** Lines 68-80. *)
Definition defaultConfig : MountConfig :=
  {| photoWidth := 203.2;
     photoHeight := 254;
     photoBorder := 6.35;
     underlap := 12.7;
     mountOffset := 7.62;
     minBorderWidth := 50.8;
     boardPreset := "A2";
     customBoardSize := {| width := 420; height := 594 |};
     mode := FixedBoard;
     manualBorders := {| top := 50; bottom := 50; left := 50; right := 50 |};
     orientation := portrait |}.

Record Position : Type := mkPosition {
  x : number;
  y : number
}.

(** Lines 95-98. *)
Definition apertureSize (config : MountConfig) : Dimensions :=
  {| width := photoWidth config + (photoBorder config * 2);
     height := photoHeight config + (photoBorder config * 2) |}.

(** Lines 119-125. *)
Definition orientPreset (o : Orientation) (pW pH : number) : number * number :=
  match o with
  | landscape => (Math_max pW pH, Math_min pW pH)
  | portrait => (Math_min pW pH, Math_max pW pH)
  end.

(** Lines 109-126. *)
Definition fixedBoardSize (config : MountConfig) : number * number :=
  if (boardPreset config =? "Custom")%string then
    (width (customBoardSize config), height (customBoardSize config))
  else
    let preset :=
      Array_find (fun p => (PaperSize.name p =? boardPreset config)%string)
                 PAPER_SIZES in
    let pW := match preset with Some p => PaperSize.width p | None => 420 end in
    let pH := match preset with Some p => PaperSize.height p | None => 594 end in
    orientPreset (orientation config) pW pH.

Record BoardGeometry : Type := mkBoardGeometry {
  boardSize : Dimensions;
  aperturePosition : Position
}.

(** Lines 101-152. *)
Definition boardGeometry (config : MountConfig) (apertureSize : Dimensions)
  : BoardGeometry :=
  let '(bWidth, bHeight, aX, aY) :=
    match mode config with
    | FixedBoard =>
        let '(bWidth, bHeight) := fixedBoardSize config in
        let totalMarginX := bWidth - width apertureSize in
        let totalMarginY := bHeight - height apertureSize in
        let aX := totalMarginX / 2 in
        let aY := (totalMarginY / 2) - mountOffset config in
        (bWidth, bHeight, aX, aY)
    | CustomBorders =>
        let '(mkBorderConfig top bottom left right) := manualBorders config in
        let bWidth := width apertureSize + left + right in
        let bHeight := height apertureSize + top + bottom in
        (bWidth, bHeight, left, top)
    end in
  {| boardSize := {| width := bWidth; height := bHeight |};
     aperturePosition := {| x := aX; y := aY |} |}.

Record Geometry : Type := mkGeometry {
  g_boardSize : Dimensions;
  g_aperturePosition : Position;
  g_apertureSize : Dimensions
}.

Definition calculate (config : MountConfig) : Geometry :=
  let a := apertureSize config in
  let bg := boardGeometry config a in
  {| g_boardSize := boardSize bg;
     g_aperturePosition := aperturePosition bg;
     g_apertureSize := a |}.

(** Lines 359-360. *)
Definition topMargin (g : Geometry) : number := y (g_aperturePosition g).

Definition bottomMargin (g : Geometry) : number :=
  height (g_boardSize g) - y (g_aperturePosition g) - height (g_apertureSize g).

(** Lines 157-159, [updateConfig] at the keys ['mountOffset'] and
    ['boardPreset']. *)
Definition updateConfig_mountOffset (prev : MountConfig) (value : number)
  : MountConfig :=
  {| photoWidth := photoWidth prev;
     photoHeight := photoHeight prev;
     photoBorder := photoBorder prev;
     underlap := underlap prev;
     mountOffset := value;
     minBorderWidth := minBorderWidth prev;
     boardPreset := boardPreset prev;
     customBoardSize := customBoardSize prev;
     mode := mode prev;
     manualBorders := manualBorders prev;
     orientation := orientation prev |}.

Definition updateConfig_boardPreset (prev : MountConfig) (value : string)
  : MountConfig :=
  {| photoWidth := photoWidth prev;
     photoHeight := photoHeight prev;
     photoBorder := photoBorder prev;
     underlap := underlap prev;
     mountOffset := mountOffset prev;
     minBorderWidth := minBorderWidth prev;
     boardPreset := value;
     customBoardSize := customBoardSize prev;
     mode := mode prev;
     manualBorders := manualBorders prev;
     orientation := orientation prev |}.

(** Lines 320-331: the two numbers an entry of the board list is shown
    with, [Math.round(unit==='inch' ? w/MM_PER_INCH : w)] and the same
    of [h], after the swap that puts the entry in the current
    orientation. *)
Definition boardOptionNumbers (config : MountConfig) (unit : Unit)
    (s : PaperSize.t) : option Z * option Z :=
  let w := PaperSize.width s in
  let h := PaperSize.height s in
  let '(w, h) :=
    match orientation config with
    | landscape => if w <? h then (h, w) else (w, h)
    | portrait => if h <? w then (h, w) else (w, h)
    end in
  (Math_round (match unit with inch => w / MM_PER_INCH | mm => w end),
   Math_round (match unit with inch => h / MM_PER_INCH | mm => h end)).

(** The default configuration in CustomBorders mode, with an aperture
    of 215.9 x 266.7 (no photo border) and the borders 50, 60, 45, 45. *)
Definition customBordersConfig : MountConfig :=
  {| photoWidth := 215.9;
     photoHeight := 266.7;
     photoBorder := 0;
     underlap := 12.7;
     mountOffset := 7.62;
     minBorderWidth := 50.8;
     boardPreset := "A2";
     customBoardSize := {| width := 420; height := 594 |};
     mode := CustomBorders;
     manualBorders := {| top := 50; bottom := 60; left := 45; right := 45 |};
     orientation := portrait |}.

End Double.

(** ** The specification's wording of the preset resolution

    These two predicates follow the specification, not the code: the
    table is consulted by exact name, with 420 x 594 when no entry has
    the name; the pair is then oriented, a swap taking place only when
    the two dimensions are in the wrong order. *)

Definition presetPair (nm : string) (pW pH : number) : Prop :=
  (exists p, In p PAPER_SIZES /\ PaperSize.name p = nm /\
             pW = PaperSize.width p /\ pH = PaperSize.height p)
  \/ ((forall p, In p PAPER_SIZES -> PaperSize.name p <> nm) /\
      pW = 420 /\ pH = 594).

Definition sameDimensions (a b : Dimensions) : Prop :=
  width a == width b /\ height a == height b.

Definition orientedAs (o : Orientation) (pW pH : number) (b : Dimensions)
  : Prop :=
  match o with
  | landscape =>
      (pW < pH -> sameDimensions b {| width := pH; height := pW |}) /\
      (pH <= pW -> sameDimensions b {| width := pW; height := pH |})
  | portrait =>
      (pH < pW -> sameDimensions b {| width := pH; height := pW |}) /\
      (pW <= pH -> sameDimensions b {| width := pW; height := pH |})
  end.

(** ** Sample configurations *)

(** The default configuration with the A4 preset. *)
Definition a4Config : MountConfig :=
  {| photoWidth := 203.2;
     photoHeight := 254;
     photoBorder := 6.35;
     underlap := 12.7;
     mountOffset := 7.62;
     minBorderWidth := 50.8;
     boardPreset := "A4";
     customBoardSize := {| width := 420; height := 594 |};
     mode := FixedBoard;
     manualBorders := {| top := 50; bottom := 50; left := 50; right := 50 |};
     orientation := portrait |}.


(** The default photo in CustomBorders mode, with the borders of the
    specification's example. *)
Definition customBordersConfig : MountConfig :=
  {| photoWidth := 203.2;
     photoHeight := 254;
     photoBorder := 6.35;
     underlap := 12.7;
     mountOffset := 7.62;
     minBorderWidth := 50.8;
     boardPreset := "A2";
     customBoardSize := {| width := 420; height := 594 |};
     mode := CustomBorders;
     manualBorders := {| top := 50; bottom := 60; left := 45; right := 45 |};
     orientation := portrait |}.



(** A FixedBoard config that differs from [defaultConfig] in every field
    the board size does not read. *)
Definition otherPhotoConfig : MountConfig :=
  {| photoWidth := 101.6;
     photoHeight := 152.4;
     photoBorder := 0;
     underlap := 3;
     mountOffset := 0;
     minBorderWidth := 50.8;
     boardPreset := "A2";
     customBoardSize := {| width := 420; height := 594 |};
     mode := FixedBoard;
     manualBorders := {| top := 1; bottom := 2; left := 3; right := 4 |};
     orientation := portrait |}.

(** The default photo with every other field changed. *)
Definition otherBoardConfig : MountConfig :=
  {| photoWidth := 203.2;
     photoHeight := 254;
     photoBorder := 6.35;
     underlap := 0;
     mountOffset := 0;
     minBorderWidth := 50.8;
     boardPreset := "Custom";
     customBoardSize := {| width := 300; height := 300 |};
     mode := CustomBorders;
     manualBorders := {| top := 1; bottom := 2; left := 3; right := 4 |};
     orientation := landscape |}.

(** The default configuration with a preset name the table lacks. *)
Definition unknownPresetConfig : MountConfig :=
  updateConfig_boardPreset defaultConfig "B5".

(** The default configuration in landscape. *)
Definition landscapeConfig : MountConfig := toggleOrientation defaultConfig.

(** A parsed response whose [suggestedValues] is a number. *)
Definition numericSuggestedValues : Advisory.value :=
  Advisory.object [ ("suggestedValues", Advisory.num 5) ].

(** An advisor state with a description typed in and an earlier advice
    on display. *)
Definition typedState : AIAdvisor.State :=
  {| AIAdvisor.description := "sunset";
     AIAdvisor.loading := false;
     AIAdvisor.advice :=
       Some {| Advisory.suggestion := Advisory.str "earlier";
               Advisory.reasoning := Advisory.str "earlier";
               Advisory.suggestedConfig := None |};
     AIAdvisor.error := None |}.

(** * Theorems *)

(** ** Helper lemmas *)

Lemma half_eq (a : number) : a / 2 == a * (1 # 2).
Proof. unfold Qdiv. reflexivity. Qed.

(** Linear arithmetic over [Q] once the halvings are products. *)
Ltac qlinear := simpl; rewrite ?half_eq; lra.

Lemma Math_max_cases (a b : number) :
  (a < b /\ Math_max a b = b) \/ (b <= a /\ Math_max a b = a).
Proof.
  unfold Math_max, Qmax, GenericMinMax.gmax.
  destruct (a ?= b) eqn:E.
  - right. split; [apply Qle_lteq; right; symmetry; now apply Qeq_alt | reflexivity].
  - left. split; [now apply Qlt_alt | reflexivity].
  - right. split; [apply Qlt_le_weak; now apply Qgt_alt | reflexivity].
Qed.

Lemma Math_min_cases (a b : number) :
  (a <= b /\ Math_min a b = a) \/ (b < a /\ Math_min a b = b).
Proof.
  unfold Math_min, Qmin, GenericMinMax.gmin.
  destruct (a ?= b) eqn:E.
  - left. split; [apply Qle_lteq; right; now apply Qeq_alt | reflexivity].
  - left. split; [apply Qlt_le_weak; now apply Qlt_alt | reflexivity].
  - right. split; [now apply Qgt_alt | reflexivity].
Qed.

Lemma orientPreset_orientedAs (o : Orientation) (pW pH : number) :
  orientedAs o pW pH
    {| width := fst (orientPreset o pW pH);
       height := snd (orientPreset o pW pH) |}.
Proof.
  destruct o; simpl;
    destruct (Math_max_cases pW pH) as [[Hlt ->] | [Hle ->]];
    destruct (Math_min_cases pW pH) as [[Hle' ->] | [Hlt' ->]];
    split; intros H; split; simpl; lra.
Qed.

(** The names of the paper-size table are pairwise distinct, so a name
    selects at most one entry. *)
Lemma PAPER_SIZES_names_NoDup : NoDup (map PaperSize.name PAPER_SIZES).
Proof.
  repeat constructor; simpl; intuition discriminate.
Qed.

Lemma NoDup_map_injective {A B : Type} (f : A -> B) (l : list A) :
  NoDup (map f l) ->
  forall a b, In a l -> In b l -> f a = f b -> a = b.
Proof.
  induction l as [| h t IH]; simpl; intros Hnd a b Ha Hb Hf.
  - contradiction.
  - inversion Hnd as [| ? ? Hnotin Hnd']; subst.
    destruct Ha as [<- | Ha], Hb as [<- | Hb].
    + reflexivity.
    + exfalso. apply Hnotin. rewrite Hf. now apply in_map.
    + exfalso. apply Hnotin. rewrite <- Hf. now apply in_map.
    + now apply IH.
Qed.

(** A preset name has exactly one pair of dimensions. *)
Lemma presetPair_functional (nm : string) (pW pH pW' pH' : number) :
  presetPair nm pW pH -> presetPair nm pW' pH' -> pW = pW' /\ pH = pH'.
Proof.
  intros [(p & Hp & Hn & -> & ->) | (Hnone & -> & ->)]
         [(q & Hq & Hn' & -> & ->) | (Hnone' & -> & ->)].
  - assert (p = q) as ->; [|split; reflexivity].
    apply (NoDup_map_injective PaperSize.name PAPER_SIZES
             PAPER_SIZES_names_NoDup); [assumption | assumption | congruence].
  - exfalso. exact (Hnone' p Hp Hn).
  - exfalso. exact (Hnone q Hq Hn').
  - split; reflexivity.
Qed.

Lemma Array_find_presetPair (nm : string) :
  let preset :=
    Array_find (fun p => (PaperSize.name p =? nm)%string) PAPER_SIZES in
  presetPair nm
    (match preset with Some p => PaperSize.width p | None => 420 end)
    (match preset with Some p => PaperSize.height p | None => 594 end).
Proof.
  cbv zeta. unfold Array_find.
  destruct (find _ PAPER_SIZES) as [p|] eqn:E.
  - apply find_some in E. destruct E as [Hin Hnm].
    apply String.eqb_eq in Hnm.
    left. exists p. auto.
  - right. split; [|split; reflexivity].
    intros p Hin Hnm.
    apply (find_none _ _ E) in Hin. simpl in Hin.
    apply String.eqb_neq in Hin. contradiction.
Qed.

Lemma calculate_FixedBoard (c : MountConfig) :
  mode c = FixedBoard ->
  calculate c =
    {| g_boardSize :=
         {| width := fst (fixedBoardSize c); height := snd (fixedBoardSize c) |};
       g_aperturePosition :=
         {| x := (fst (fixedBoardSize c) - width (apertureSize c)) / 2;
            y := (snd (fixedBoardSize c) - height (apertureSize c)) / 2
                 - mountOffset c |};
       g_apertureSize := apertureSize c |}.
Proof.
  intros Hm. unfold calculate, boardGeometry. rewrite Hm.
  destruct (fixedBoardSize c) as [bW bH]. reflexivity.
Qed.


Lemma Double_calculate_FixedBoard (c : Double.MountConfig) :
  Double.mode c = FixedBoard ->
  Double.calculate c =
    {| Double.g_boardSize :=
         {| Double.width := fst (Double.fixedBoardSize c);
            Double.height := snd (Double.fixedBoardSize c) |};
       Double.g_aperturePosition :=
         {| Double.x :=
              ((fst (Double.fixedBoardSize c)
                - Double.width (Double.apertureSize c)) / 2)%float;
            Double.y :=
              ((snd (Double.fixedBoardSize c)
                - Double.height (Double.apertureSize c)) / 2
               - Double.mountOffset c)%float |};
       Double.g_apertureSize := Double.apertureSize c |}.
Proof.
  intros Hm. unfold Double.calculate, Double.boardGeometry. rewrite Hm.
  destruct (Double.fixedBoardSize c) as [bW bH]. reflexivity.
Qed.



(** ** C1: resolution of the board size in FixedBoard mode *)

(** C1. In FixedBoard mode: with the preset ["Custom"] the board size is
    [customBoardSize] unchanged; with any other preset there is a pair
    [(pW, pH)], the table entry of that exact name or 420 x 594 when no
    entry has the name, and the board is that pair oriented: landscape
    puts the larger dimension in the width, portrait the smaller, with no
    swap when they are equal.  With ["A4"] and portrait the board is
    210 x 297. *)
Theorem C1_fixed_board_resolution (c : MountConfig) :
  mode c = FixedBoard ->
  let b := g_boardSize (calculate c) in
  (boardPreset c = "Custom" -> b = customBoardSize c) /\
  (boardPreset c <> "Custom" ->
     exists pW pH,
       presetPair (boardPreset c) pW pH /\
       orientedAs (orientation c) pW pH b) /\
  (boardPreset c = "A4" -> orientation c = portrait ->
     b = {| width := 210; height := 297 |}).
Proof.
  intros Hm. rewrite (calculate_FixedBoard c Hm). cbv zeta. simpl g_boardSize.
  unfold fixedBoardSize.
  repeat split.
  - intros Hp. rewrite Hp. simpl. destruct (customBoardSize c). reflexivity.
  - intros Hp. apply String.eqb_neq in Hp. rewrite Hp.
    eexists. eexists. split.
    + apply Array_find_presetPair.
    + apply orientPreset_orientedAs.
  - intros Hp Ho. rewrite Hp, Ho. reflexivity.
Qed.

Lemma C1_witness :
  mode a4Config = FixedBoard /\
  boardPreset a4Config <> "Custom" /\
  g_boardSize (calculate a4Config) = {| width := 210; height := 297 |} /\
  exists pW pH,
    presetPair "A4" pW pH /\
    orientedAs portrait pW pH (g_boardSize (calculate a4Config)).
Proof.
  assert (Hne : boardPreset a4Config <> "Custom") by discriminate.
  pose proof (C1_fixed_board_resolution a4Config eq_refl) as [_ [H2 H3]].
  split; [reflexivity|].
  split; [exact Hne|].
  split; [exact (H3 eq_refl eq_refl) | exact (H2 Hne)].
Defined.

(** ** C2: the aperture position in FixedBoard mode *)






(** ** C3: the aperture size *)



(** The aperture size does not read the mode. *)
Lemma apertureSize_mode_independent (c1 c2 : MountConfig) :
  photoWidth c1 = photoWidth c2 ->
  photoHeight c1 = photoHeight c2 ->
  photoBorder c1 = photoBorder c2 ->
  g_apertureSize (calculate c1) = g_apertureSize (calculate c2).
Proof.
  intros Hw Hh Hb. unfold calculate, apertureSize. simpl.
  rewrite Hw, Hh, Hb. reflexivity.
Qed.

(** ** C4: CustomBorders mode *)






(** ** C5: the end-to-end example *)

(** In exact arithmetic, with photoWidth = 203.2, photoHeight = 254,
    photoBorder = 6.35, mode FixedBoard, preset "A2", portrait and
    mountOffset = 7.62, the formulas give the aperture 215.9 x 266.7,
    the board 420 x 594, aX = 102.05 and aY = 156.03. *)
Lemma exact_end_to_end (c : MountConfig) :
  photoWidth c == 203.2 ->
  photoHeight c == 254 ->
  photoBorder c == 6.35 ->
  mode c = FixedBoard ->
  boardPreset c = "A2" ->
  orientation c = portrait ->
  mountOffset c == 7.62 ->
  let g := calculate c in
  sameDimensions (g_apertureSize g) {| width := 215.9; height := 266.7 |} /\
  g_boardSize g = {| width := 420; height := 594 |} /\
  x (g_aperturePosition g) == 102.05 /\
  y (g_aperturePosition g) == 156.03.
Proof.
  intros Hw Hh Hb Hm Hp Ho Hoff.
  rewrite (calculate_FixedBoard c Hm). cbv zeta.
  unfold fixedBoardSize, apertureSize, sameDimensions.
  rewrite Hp, Ho.
  cbn [String.eqb Ascii.eqb Bool.eqb Array_find find PAPER_SIZES
       PaperSize.name PaperSize.width PaperSize.height].
  change (orientPreset portrait _ _) with (420, 594). simpl.
  split; [split; lra|]. split; [reflexivity|].
  split; rewrite half_eq; lra.
Qed.

(** On doubles the values of C5 are not those the code returns: at the
    stated input, which is the default configuration, the aperture
    width is 215.89999999999998 and aX is 102.05000000000001. *)
Lemma C5_counterexample :
  let g := Double.calculate Double.defaultConfig in
  Double.width (Double.g_apertureSize g) = 215.89999999999998%float /\
  Double.x (Double.g_aperturePosition g) = 102.05000000000001%float /\
  ~ Double.same (Double.width (Double.g_apertureSize g)) 215.9%float /\
  ~ Double.same (Double.x (Double.g_aperturePosition g)) 102.05%float.
Proof.
  cbv zeta. do 2 (split; [reflexivity|]).
  unfold Double.same. split; vm_compute; discriminate.
Qed.

(** C5 (amended). With photoWidth = 203.2, photoHeight = 254,
    photoBorder = 6.35, mode FixedBoard, preset "A2", portrait and
    mountOffset = 7.62, the calculator returns the aperture
    215.89999999999998 x 266.7, the board 420 x 594,
    aX = 102.05000000000001 and aY = 156.03: the values 215.9 and
    102.05 of exact arithmetic are each missed by less than 1e-13. *)
Theorem C5_end_to_end_on_doubles (c : Double.MountConfig) :
  Double.photoWidth c = 203.2%float ->
  Double.photoHeight c = 254%float ->
  Double.photoBorder c = 6.35%float ->
  Double.mode c = FixedBoard ->
  Double.boardPreset c = "A2" ->
  Double.orientation c = portrait ->
  Double.mountOffset c = 7.62%float ->
  let g := Double.calculate c in
  Double.g_apertureSize g
    = {| Double.width := 215.89999999999998%float;
         Double.height := 266.7%float |} /\
  Double.g_boardSize g
    = {| Double.width := 420%float; Double.height := 594%float |} /\
  Double.x (Double.g_aperturePosition g) = 102.05000000000001%float /\
  Double.y (Double.g_aperturePosition g) = 156.03%float /\
  (abs (Double.width (Double.g_apertureSize g) - 215.9) <? 1e-13)%float
    = true /\
  (abs (Double.x (Double.g_aperturePosition g) - 102.05) <? 1e-13)%float
    = true.
Proof.
  intros Hw Hh Hb Hm Hp Ho Hoff.
  rewrite (Double_calculate_FixedBoard c Hm). cbv zeta.
  unfold Double.fixedBoardSize, Double.apertureSize.
  rewrite Hw, Hh, Hb, Hp, Ho, Hoff.
  repeat split; reflexivity.
Qed.

Lemma C5_witness :
  let g := Double.calculate Double.defaultConfig in
  Double.g_apertureSize g
    = {| Double.width := 215.89999999999998%float;
         Double.height := 266.7%float |} /\
  Double.g_boardSize g
    = {| Double.width := 420%float; Double.height := 594%float |} /\
  Double.x (Double.g_aperturePosition g) = 102.05000000000001%float /\
  Double.y (Double.g_aperturePosition g) = 156.03%float /\
  (abs (Double.width (Double.g_apertureSize g) - 215.9) <? 1e-13)%float
    = true /\
  (abs (Double.x (Double.g_aperturePosition g) - 102.05) <? 1e-13)%float
    = true.
Proof.
  exact (C5_end_to_end_on_doubles Double.defaultConfig
           eq_refl eq_refl eq_refl eq_refl eq_refl eq_refl eq_refl).
Defined.


(** ** C6: the weighted bottom *)

(** In exact arithmetic, with a zero offset the FixedBoard aperture is
    centred vertically. *)
Lemma zero_offset_centred (c : MountConfig) :
  mode c = FixedBoard ->
  let g0 := calculate (updateConfig_mountOffset c 0) in
  bottomMargin g0 == topMargin g0.
Proof.
  intros Hm. cbv zeta.
  rewrite (calculate_FixedBoard (updateConfig_mountOffset c 0) Hm).
  unfold bottomMargin, topMargin. qlinear.
Qed.






(** ** C7: the orientation toggle *)

(** C7. The toggle swaps photoWidth with photoHeight and the two fields
    of customBoardSize, flips the orientation and leaves every other
    field as it was; applied twice it gives back the config it started
    from, in particular photoWidth, photoHeight and customBoardSize. *)
Theorem C7_toggle_orientation (c : MountConfig) :
  let t := toggleOrientation c in
  photoWidth t = photoHeight c /\
  photoHeight t = photoWidth c /\
  width (customBoardSize t) = height (customBoardSize c) /\
  height (customBoardSize t) = width (customBoardSize c) /\
  orientation t <> orientation c /\
  photoBorder t = photoBorder c /\
  underlap t = underlap c /\
  mountOffset t = mountOffset c /\
  minBorderWidth t = minBorderWidth c /\
  boardPreset t = boardPreset c /\
  mode t = mode c /\
  manualBorders t = manualBorders c /\
  toggleOrientation (toggleOrientation c) = c.
Proof.
  destruct c as [pw ph pb ul mo mb bp [cw ch] md mbs o].
  cbv zeta. unfold toggleOrientation. simpl.
  repeat (split; [reflexivity|]).
  split; [destruct o; discriminate|].
  repeat (split; [reflexivity|]).
  destruct o; reflexivity.
Qed.

(** ** C8: totality and the absence of clamping *)



(** ** C9: what the board size and the aperture size depend on *)

(** C9. Two FixedBoard configs that agree on boardPreset,
    customBoardSize and orientation have the same board size, whatever
    their mountOffset, underlap, photo dimensions, photoBorder and
    manualBorders; two configs, in any modes, that agree on photoWidth,
    photoHeight and photoBorder have the same aperture size, whatever
    their mountOffset, underlap, boardPreset, customBoardSize and
    manualBorders. *)
Theorem C9_frame (c1 c2 : MountConfig) :
  (mode c1 = FixedBoard -> mode c2 = FixedBoard ->
   boardPreset c1 = boardPreset c2 ->
   customBoardSize c1 = customBoardSize c2 ->
   orientation c1 = orientation c2 ->
   g_boardSize (calculate c1) = g_boardSize (calculate c2)) /\
  (photoWidth c1 = photoWidth c2 ->
   photoHeight c1 = photoHeight c2 ->
   photoBorder c1 = photoBorder c2 ->
   g_apertureSize (calculate c1) = g_apertureSize (calculate c2)).
Proof.
  split.
  - intros Hm1 Hm2 Hp Hc Ho.
    rewrite (calculate_FixedBoard c1 Hm1), (calculate_FixedBoard c2 Hm2).
    simpl. unfold fixedBoardSize. rewrite Hp, Hc, Ho. reflexivity.
  - apply apertureSize_mode_independent.
Qed.

Lemma C9_witness :
  g_boardSize (calculate defaultConfig)
    = g_boardSize (calculate otherPhotoConfig) /\
  g_apertureSize (calculate defaultConfig)
    = g_apertureSize (calculate otherBoardConfig).
Proof.
  split.
  - exact (proj1 (C9_frame defaultConfig otherPhotoConfig)
             eq_refl eq_refl eq_refl eq_refl eq_refl).
  - exact (proj2 (C9_frame defaultConfig otherBoardConfig)
             eq_refl eq_refl eq_refl).
Defined.

(** ** C10: the advisory mapping *)

Lemma get_truthy_defined (v : Advisory.value) (key : string) :
  Advisory.truthy v = true -> exists w, Advisory.get v key = inr w.
Proof.
  destruct v; simpl; intros H; try discriminate; eexists; reflexivity.
Qed.

Lemma adviceOfResult_inr (result : Advisory.value) (advice : Advisory.AIAdvice) :
  Advisory.adviceOfResult result = inr advice ->
  exists sv side sc,
    Advisory.get result "suggestedValues" = inr sv /\
    Advisory.truthy sv = true /\
    Advisory.get sv "sideBorder" = inr side /\
    Advisory.suggestedConfig advice = Some sc /\
    Advisory.left (Advisory.manualBorders sc) = side /\
    Advisory.right (Advisory.manualBorders sc) = side /\
    Advisory.mode sc = CustomBorders.
Proof.
  unfold Advisory.adviceOfResult.
  destruct (Advisory.get result "suggestedValues") as [e | sv] eqn:Hsv;
    simpl; [discriminate|].
  destruct (Advisory.truthy sv) eqn:Ht; simpl; [|discriminate].
  destruct (Advisory.get result "suggestion") as [e | sg]; simpl;
    [discriminate|].
  destruct (Advisory.get result "reasoning") as [e | rs]; simpl;
    [discriminate|].
  destruct (get_truthy_defined sv "photoBorder" Ht) as [pb ->].
  destruct (get_truthy_defined sv "mountOffset" Ht) as [mo ->].
  destruct (get_truthy_defined sv "topBorder" Ht) as [tb ->].
  destruct (get_truthy_defined sv "bottomBorder" Ht) as [bb ->].
  destruct (get_truthy_defined sv "sideBorder" Ht) as [sb Hsb].
  rewrite Hsb. simpl. intros H. injection H as <-.
  exists sv, sb. eexists. simpl.
  repeat split; first [reflexivity | assumption].
Qed.

Lemma adviceOfResult_accepts (result sv : Advisory.value) :
  Advisory.get result "suggestedValues" = inr sv ->
  Advisory.truthy sv = true ->
  exists advice, Advisory.adviceOfResult result = inr advice.
Proof.
  intros Hsv Ht. unfold Advisory.adviceOfResult. rewrite Hsv. simpl.
  rewrite Ht. simpl.
  assert (Hres : forall key, exists w, Advisory.get result key = inr w).
  { intros key. destruct result; simpl in *; try discriminate;
      eexists; reflexivity. }
  destruct (Hres "suggestion") as [sg ->].
  destruct (Hres "reasoning") as [rs ->].
  destruct (get_truthy_defined sv "photoBorder" Ht) as [pb ->].
  destruct (get_truthy_defined sv "mountOffset" Ht) as [mo ->].
  destruct (get_truthy_defined sv "topBorder" Ht) as [tb ->].
  destruct (get_truthy_defined sv "bottomBorder" Ht) as [bb ->].
  destruct (get_truthy_defined sv "sideBorder" Ht) as [sb ->].
  simpl. eexists. reflexivity.
Qed.

Lemma adviceOfResult_rejects (result sv : Advisory.value) :
  Advisory.get result "suggestedValues" = inr sv ->
  Advisory.truthy sv = false ->
  Advisory.adviceOfResult result
    = inl (Advisory.ErrorMsg "Invalid response from AI").
Proof.
  intros Hsv Ht. unfold Advisory.adviceOfResult. rewrite Hsv. simpl.
  rewrite Ht. reflexivity.
Qed.

(** C10. Whenever [getMountAdvice] returns, the parsed response held a
    truthy [suggestedValues], and the [suggestedConfig] it built has
    [manualBorders.left] and [manualBorders.right] both equal to the one
    [sideBorder] value, and has the mode "CustomBorders"; such a
    response is accepted whenever the client could be built; and a
    response whose parsed object has no [suggestedValues] makes the
    function throw rather than return (the error being "Invalid
    response from AI" when the client could be built). *)
Theorem C10_advice_mapping
    (JSON_parse : string -> Advisory.attempt Advisory.value)
    (API_KEY : option string)
    (response : Advisory.attempt (option string)) :
  (forall advice,
     Advisory.getMountAdvice JSON_parse API_KEY response = inr advice ->
     exists r result sv side sc,
       response = inr r /\
       JSON_parse (Advisory.textOrEmptyObject r) = inr result /\
       Advisory.get result "suggestedValues" = inr sv /\
       Advisory.truthy sv = true /\
       Advisory.get sv "sideBorder" = inr side /\
       Advisory.suggestedConfig advice = Some sc /\
       Advisory.left (Advisory.manualBorders sc) = side /\
       Advisory.right (Advisory.manualBorders sc) = side /\
       Advisory.left (Advisory.manualBorders sc)
         = Advisory.right (Advisory.manualBorders sc) /\
       Advisory.mode sc = CustomBorders) /\
  (forall r result sv,
     Advisory.getClient API_KEY = inr tt ->
     response = inr r ->
     JSON_parse (Advisory.textOrEmptyObject r) = inr result ->
     Advisory.get result "suggestedValues" = inr sv ->
     Advisory.truthy sv = true ->
     exists advice,
       Advisory.getMountAdvice JSON_parse API_KEY response = inr advice) /\
  (forall r props,
     response = inr r ->
     JSON_parse (Advisory.textOrEmptyObject r) = inr (Advisory.object props) ->
     Advisory.lookup "suggestedValues" props = Advisory.undefined ->
     exists e,
       Advisory.getMountAdvice JSON_parse API_KEY response = inl e /\
       (Advisory.getClient API_KEY = inr tt ->
        e = Advisory.ErrorMsg "Invalid response from AI")).
Proof.
  unfold Advisory.getMountAdvice.
  split; [|split].
  - intros advice H.
    destruct (Advisory.getClient API_KEY) as [e | []]; simpl in H;
      [discriminate|].
    destruct response as [e | r]; simpl in H; [discriminate|].
    destruct (JSON_parse (Advisory.textOrEmptyObject r)) as [e | result]
      eqn:Hparse; simpl in H; [discriminate|].
    destruct (adviceOfResult_inr result advice H)
      as (sv & side & sc & Hsv & Ht & Hside & Hsc & Hl & Hr & Hmode).
    exists r, result, sv, side, sc.
    repeat (split; [first [reflexivity | assumption]|]).
    split; [congruence | assumption].
  - intros r result sv Hc -> Hparse Hsv Ht.
    rewrite Hc. simpl. rewrite Hparse. simpl.
    exact (adviceOfResult_accepts result sv Hsv Ht).
  - intros r props -> Hparse Hlk.
    destruct (Advisory.getClient API_KEY) as [e | []]; simpl.
    + exists e. split; [reflexivity | discriminate].
    + rewrite Hparse. simpl.
      rewrite (adviceOfResult_rejects _ Advisory.undefined);
        [| simpl; rewrite Hlk; reflexivity | reflexivity].
      eexists. split; [reflexivity | reflexivity].
Qed.

Lemma C10_witness :
  (exists advice sc,
     Advisory.getMountAdvice Advisory.parseSample (Some "key")
       (inr (Some "sample")) = inr advice /\
     Advisory.suggestedConfig advice = Some sc /\
     Advisory.left (Advisory.manualBorders sc) = Advisory.num 2 /\
     Advisory.right (Advisory.manualBorders sc) = Advisory.num 2 /\
     Advisory.mode sc = CustomBorders) /\
  Advisory.getMountAdvice Advisory.parseEmptyObject (Some "key") (inr None)
    = inl (Advisory.ErrorMsg "Invalid response from AI").
Proof.
  split.
  - destruct (C10_advice_mapping Advisory.parseSample (Some "key")
                (inr (Some "sample"))) as (Hret & Hacc & _).
    destruct (Hacc (Some "sample") Advisory.sampleResult _
                eq_refl eq_refl eq_refl eq_refl eq_refl) as [advice Hadv].
    destruct (Hret advice Hadv)
      as (r & result & sv & side & sc & Hr & Hp & Hsv & _ & Hside
          & Hsc & Hl & Hrt & _ & Hmode).
    exists advice, sc.
    injection Hp as <-. injection Hsv as <-. injection Hside as <-.
    repeat split; assumption.
  - destruct (C10_advice_mapping Advisory.parseEmptyObject (Some "key")
                (inr None)) as (_ & _ & Hrej).
    destruct (Hrej None [] eq_refl eq_refl eq_refl) as (e & He & Hmsg).
    rewrite He, (Hmsg eq_refl). reflexivity.
Defined.


(** * Further properties of the code *)

(** ** The calculator *)

Lemma gtb_true (a b : number) : gtb a b = true <-> b < a.
Proof.
  unfold gtb. rewrite negb_true_iff.
  split.
  - intros H. apply Qnot_le_lt. intros Hle.
    apply Qle_bool_iff in Hle. congruence.
  - intros H. destruct (Qle_bool a b) eqn:E; [|reflexivity].
    apply Qle_bool_iff in E. lra.
Qed.

Lemma gtb_false (a b : number) : gtb a b = false <-> a <= b.
Proof.
  unfold gtb. rewrite negb_false_iff. apply Qle_bool_iff.
Qed.

(** X4. The toggle transposes the aperture size in every mode.  In
    FixedBoard mode it also transposes the board, with a preset as with
    a custom size, while the offset stays vertical: the new aX is half
    the old vertical slack, (boardHeight - apertureHeight) / 2, with no
    offset, and the new aY is half the old horizontal slack,
    (boardWidth - apertureWidth) / 2, minus the offset. *)
Theorem toggle_transposes_geometry (c : MountConfig) :
  let g := calculate c in
  let g' := calculate (toggleOrientation c) in
  width (g_apertureSize g') = height (g_apertureSize g) /\
  height (g_apertureSize g') = width (g_apertureSize g) /\
  (mode c = FixedBoard ->
   width (g_boardSize g') = height (g_boardSize g) /\
   height (g_boardSize g') = width (g_boardSize g) /\
   x (g_aperturePosition g')
     = (height (g_boardSize g) - height (g_apertureSize g)) / 2 /\
   y (g_aperturePosition g')
     = (width (g_boardSize g) - width (g_apertureSize g)) / 2
       - mountOffset c).
Proof.
  cbv zeta. split; [reflexivity|]. split; [reflexivity|].
  intros Hm.
  assert (Hm' : mode (toggleOrientation c) = FixedBoard) by exact Hm.
  rewrite (calculate_FixedBoard c Hm).
  rewrite (calculate_FixedBoard (toggleOrientation c) Hm').
  assert (Hb : fixedBoardSize (toggleOrientation c)
               = (snd (fixedBoardSize c), fst (fixedBoardSize c))).
  { unfold fixedBoardSize, toggleOrientation. simpl.
    destruct (boardPreset c =? "Custom")%string; [reflexivity|].
    destruct (orientation c); reflexivity. }
  simpl. rewrite Hb. simpl.
  repeat split; reflexivity.
Qed.

Lemma toggle_transposes_geometry_witness :
  let g' := calculate (toggleOrientation defaultConfig) in
  g_boardSize g' = {| width := 594; height := 420 |} /\
  x (g_aperturePosition g') = (594 - (254 + 6.35 * 2)) / 2 /\
  y (g_aperturePosition g') = (420 - (203.2 + 6.35 * 2)) / 2 - 7.62.
Proof.
  destruct (toggle_transposes_geometry defaultConfig)
    as (_ & _ & Hfixed).
  destruct (Hfixed eq_refl) as (_ & _ & Hx & Hy).
  split; [reflexivity|]. split; [exact Hx | exact Hy].
Defined.

(** X5. In FixedBoard mode a preset name that is neither "Custom" nor in
    the paper-size table gives the geometry of the preset "A2". *)
Theorem unknown_preset_is_A2 (c : MountConfig) :
  boardPreset c <> "Custom" ->
  (forall p, In p PAPER_SIZES -> PaperSize.name p <> boardPreset c) ->
  calculate c = calculate (updateConfig_boardPreset c "A2").
Proof.
  intros Hc Hnone.
  assert (Hfind : Array_find
            (fun p => (PaperSize.name p =? boardPreset c)%string) PAPER_SIZES
          = None).
  { unfold Array_find.
    destruct (find _ PAPER_SIZES) as [p|] eqn:E; [|reflexivity].
    apply find_some in E. destruct E as [Hin Hnm].
    apply String.eqb_eq in Hnm. exfalso. exact (Hnone p Hin Hnm). }
  assert (Hb : fixedBoardSize c
               = fixedBoardSize (updateConfig_boardPreset c "A2")).
  { unfold fixedBoardSize. apply String.eqb_neq in Hc. rewrite Hc, Hfind.
    reflexivity. }
  unfold calculate, boardGeometry.
  change (mode (updateConfig_boardPreset c "A2")) with (mode c).
  change (apertureSize (updateConfig_boardPreset c "A2"))
    with (apertureSize c).
  change (mountOffset (updateConfig_boardPreset c "A2"))
    with (mountOffset c).
  change (manualBorders (updateConfig_boardPreset c "A2"))
    with (manualBorders c).
  rewrite <- Hb. reflexivity.
Qed.

Lemma unknown_preset_is_A2_witness :
  calculate unknownPresetConfig = calculate defaultConfig.
Proof.
  apply (unknown_preset_is_A2 unknownPresetConfig).
  - discriminate.
  - simpl. intros p Hin Hnm.
    repeat (destruct Hin as [<- | Hin]; [discriminate Hnm|]).
    contradiction.
Defined.

(** X6. In FixedBoard mode with any preset other than "Custom", found in
    the table or not, a landscape board is at least as wide as it is
    high and a portrait board at least as high as it is wide. *)
Theorem preset_board_follows_orientation (c : MountConfig) :
  mode c = FixedBoard ->
  boardPreset c <> "Custom" ->
  let b := g_boardSize (calculate c) in
  match orientation c with
  | landscape => height b <= width b
  | portrait => width b <= height b
  end.
Proof.
  intros Hm Hc. rewrite (calculate_FixedBoard c Hm). cbv zeta. simpl.
  unfold fixedBoardSize. apply String.eqb_neq in Hc. rewrite Hc.
  cbv zeta.
  set (pW := match Array_find _ _ with Some p => PaperSize.width p | None => _ end).
  set (pH := match Array_find _ _ with Some p => PaperSize.height p | None => _ end).
  destruct (orientation c); simpl;
    destruct (Math_max_cases pW pH) as [[H1 ->] | [H1 ->]];
    destruct (Math_min_cases pW pH) as [[H2 ->] | [H2 ->]]; lra.
Qed.

Lemma preset_board_follows_orientation_witness :
  height (g_boardSize (calculate landscapeConfig))
    <= width (g_boardSize (calculate landscapeConfig)).
Proof.
  apply (preset_board_follows_orientation landscapeConfig eq_refl).
  discriminate.
Defined.

(** X7. For every entry of the paper-size table, in either orientation
    and either unit, the two numbers the board list shows for the entry
    are [Math.round] of the width and height (divided by 25.4 for
    inches) of the board the calculator resolves once the entry is the
    preset: the swap of the list and the max/min of the calculator
    agree.  On doubles. *)
Theorem board_option_numbers_match_calculator
    (c : Double.MountConfig) (unit : Unit) (s : Double.PaperSize.t) :
  In s Double.PAPER_SIZES ->
  Double.mode c = FixedBoard ->
  let b :=
    Double.g_boardSize
      (Double.calculate
         (Double.updateConfig_boardPreset c (Double.PaperSize.name s))) in
  Double.boardOptionNumbers c unit s =
    (Double.Math_round
       (match unit with
        | inch => (Double.width b / Double.MM_PER_INCH)%float
        | mm => Double.width b
        end),
     Double.Math_round
       (match unit with
        | inch => (Double.height b / Double.MM_PER_INCH)%float
        | mm => Double.height b
        end)).
Proof.
  intros Hin Hm. cbv zeta.
  rewrite (Double_calculate_FixedBoard
             (Double.updateConfig_boardPreset c (Double.PaperSize.name s)) Hm).
  destruct c as [pw ph pb ul mo mb bp cb md mbs o].
  unfold Double.boardOptionNumbers, Double.fixedBoardSize; simpl.
  simpl in Hin.
  repeat (destruct Hin as [<- | Hin];
          [destruct o, unit; vm_compute; reflexivity|]).
  contradiction.
Qed.

Lemma board_option_numbers_match_calculator_witness :
  Double.boardOptionNumbers Double.defaultConfig mm
    (Double.PaperSize.mk "Letter" 215.9%float 279.4%float)
  = (Some 216%Z, Some 279%Z).
Proof.
  rewrite (board_option_numbers_match_calculator Double.defaultConfig mm
             (Double.PaperSize.mk "Letter" 215.9%float 279.4%float)).
  - reflexivity.
  - simpl. do 6 right. left. reflexivity.
  - reflexivity.
Defined.


(** Every entry of the photo table is stored upright. *)
Lemma COMMON_PHOTO_SIZES_upright (s : PaperSize.t) :
  In s COMMON_PHOTO_SIZES -> PaperSize.width s < PaperSize.height s.
Proof.
  simpl. intros H.
  repeat (destruct H as [<- | H]; [reflexivity|]). contradiction.
Qed.

Lemma COMMON_PHOTO_SIZES_names_NoDup :
  NoDup (map PaperSize.name COMMON_PHOTO_SIZES).
Proof.
  repeat constructor; simpl; intuition discriminate.
Qed.

Lemma Array_find_by_name (table : list PaperSize.t) (s : PaperSize.t) :
  NoDup (map PaperSize.name table) ->
  In s table ->
  Array_find (fun p => (PaperSize.name p =? PaperSize.name s)%string) table
    = Some s.
Proof.
  intros Hnd Hin. unfold Array_find.
  destruct (find _ table) as [p|] eqn:E.
  - apply find_some in E. destruct E as [Hp Hnm].
    apply String.eqb_eq in Hnm.
    f_equal. exact (NoDup_map_injective PaperSize.name table Hnd p s Hp Hin Hnm).
  - apply (find_none _ _ E) in Hin. simpl in Hin.
    rewrite String.eqb_refl in Hin. discriminate.
Qed.

Lemma swapForOrientation_upright (o : Orientation) (w h : number) :
  w < h ->
  swapForOrientation o w h
    = match o with portrait => (w, h) | landscape => (h, w) end.
Proof.
  intros Hlt. unfold swapForOrientation. destruct o.
  - assert (E : gtb w h = false) by (apply gtb_false; lra).
    rewrite E. reflexivity.
  - assert (E : gtb h w = true) by (apply gtb_true; lra).
    rewrite E. reflexivity.
Qed.

(** ** The photo preset list *)

(** X8. Choosing a photo preset changes nothing but photoWidth and
    photoHeight.  A name the photo table lacks (the empty value of the
    "Custom" entry included) leaves the config as it is; the name of an
    entry stores that entry's dimensions, upright in portrait and
    transposed in landscape. *)
Theorem select_photo_preset_effect (c : MountConfig) (value : string) :
  let c' := selectPhotoPreset c value in
  (photoBorder c' = photoBorder c /\ underlap c' = underlap c /\
   mountOffset c' = mountOffset c /\ minBorderWidth c' = minBorderWidth c /\
   boardPreset c' = boardPreset c /\ customBoardSize c' = customBoardSize c /\
   mode c' = mode c /\ manualBorders c' = manualBorders c /\
   orientation c' = orientation c) /\
  ((forall p, In p COMMON_PHOTO_SIZES -> PaperSize.name p <> value) ->
   c' = c) /\
  (forall s, In s COMMON_PHOTO_SIZES -> PaperSize.name s = value ->
   (photoWidth c', photoHeight c') =
     match orientation c with
     | portrait => (PaperSize.width s, PaperSize.height s)
     | landscape => (PaperSize.height s, PaperSize.width s)
     end).
Proof.
  cbv zeta. unfold selectPhotoPreset.
  split; [|split].
  - destruct (Array_find _ COMMON_PHOTO_SIZES) as [s|];
      [destruct (swapForOrientation _ _ _)|]; simpl; repeat split.
  - intros Hnone. unfold Array_find.
    destruct (find _ COMMON_PHOTO_SIZES) as [s|] eqn:E; [|reflexivity].
    apply find_some in E. destruct E as [Hin Hnm].
    apply String.eqb_eq in Hnm. exfalso. exact (Hnone s Hin Hnm).
  - intros s Hin <-.
    rewrite (Array_find_by_name COMMON_PHOTO_SIZES s
               COMMON_PHOTO_SIZES_names_NoDup Hin).
    rewrite (swapForOrientation_upright _ _ _
               (COMMON_PHOTO_SIZES_upright s Hin)).
    destruct (orientation c); reflexivity.
Qed.

Lemma select_photo_preset_effect_witness :
  selectPhotoPreset landscapeConfig "" = landscapeConfig /\
  (photoWidth (selectPhotoPreset landscapeConfig "A4"),
   photoHeight (selectPhotoPreset landscapeConfig "A4")) = (297, 210).
Proof.
  destruct (select_photo_preset_effect landscapeConfig "") as (_ & Hnone & _).
  destruct (select_photo_preset_effect landscapeConfig "A4") as (_ & _ & Hset).
  split.
  - apply Hnone. simpl. intros p Hin Hnm.
    repeat (destruct Hin as [<- | Hin]; [discriminate Hnm|]).
    contradiction.
  - apply (Hset (PaperSize.mk "A4" 210 297)); [|reflexivity].
    simpl. do 6 right. left. reflexivity.
Defined.

(** X9. Choosing a photo preset and toggling the orientation commute:
    either order leaves the same config, whatever the name chosen. *)
Theorem select_photo_preset_toggle_commute (c : MountConfig) (value : string) :
  selectPhotoPreset (toggleOrientation c) value
  = toggleOrientation (selectPhotoPreset c value).
Proof.
  unfold selectPhotoPreset, Array_find.
  destruct (find _ COMMON_PHOTO_SIZES) as [s|] eqn:E; [|reflexivity].
  apply find_some in E. destruct E as [Hin _].
  pose proof (COMMON_PHOTO_SIZES_upright s Hin) as Hup.
  rewrite !(swapForOrientation_upright _ _ _ Hup).
  unfold toggleOrientation, updateConfig_photoHeight, updateConfig_photoWidth.
  destruct (orientation c); reflexivity.
Qed.

(** ** The advisory service *)

Lemma getClient_inr (API_KEY : option string) :
  Advisory.getClient API_KEY = inr tt
  <-> exists k, API_KEY = Some k /\ k <> "".
Proof.
  unfold Advisory.getClient. split.
  - destruct API_KEY as [k|]; [|discriminate].
    destruct (k =? "")%string eqn:E; [discriminate|].
    intros _. exists k. split; [reflexivity | now apply String.eqb_neq].
  - intros (k & -> & Hk). apply String.eqb_neq in Hk. rewrite Hk.
    reflexivity.
Qed.

(** X17. [getMountAdvice] returns an advice exactly when the API key is
    a non-empty string, the request settled with a response, the parser
    accepted its text and the parsed value holds a truthy
    [suggestedValues]; in every other case it throws. *)
Theorem getMountAdvice_returns_iff
    (JSON_parse : string -> Advisory.attempt Advisory.value)
    (API_KEY : option string)
    (response : Advisory.attempt (option string)) :
  (exists advice,
     Advisory.getMountAdvice JSON_parse API_KEY response = inr advice)
  <-> (exists k r result sv,
         API_KEY = Some k /\ k <> "" /\
         response = inr r /\
         JSON_parse (Advisory.textOrEmptyObject r) = inr result /\
         Advisory.get result "suggestedValues" = inr sv /\
         Advisory.truthy sv = true).
Proof.
  unfold Advisory.getMountAdvice. split.
  - intros [advice H].
    destruct (Advisory.getClient API_KEY) as [e | []] eqn:Hc; simpl in H;
      [discriminate|].
    apply getClient_inr in Hc. destruct Hc as (k & Hk & Hne).
    destruct response as [e | r]; simpl in H; [discriminate|].
    destruct (JSON_parse (Advisory.textOrEmptyObject r)) as [e | result]
      eqn:Hparse; simpl in H; [discriminate|].
    destruct (adviceOfResult_inr result advice H)
      as (sv & side & sc & Hsv & Ht & _).
    exists k, r, result, sv. repeat split; assumption.
  - intros (k & r & result & sv & Hk & Hne & -> & Hparse & Hsv & Ht).
    assert (Hc : Advisory.getClient API_KEY = inr tt)
      by (apply getClient_inr; exists k; split; assumption).
    rewrite Hc. simpl. rewrite Hparse. simpl.
    exact (adviceOfResult_accepts result sv Hsv Ht).
Qed.

Lemma getMountAdvice_returns_iff_witness :
  exists advice,
    Advisory.getMountAdvice Advisory.parseSample (Some "key")
      (inr (Some "sample")) = inr advice.
Proof.
  apply (proj2 (getMountAdvice_returns_iff Advisory.parseSample (Some "key")
                  (inr (Some "sample")))).
  exists "key", (Some "sample"), Advisory.sampleResult.
  eexists. repeat split; try reflexivity. discriminate.
Defined.

(** X18. The errors of [getMountAdvice] come in the order of the code
    and are rethrown as they are: without a key (absent or empty) the
    error is "API Key not found" whatever the response; with a key, a
    failed request or a failed parse throws that very error, and a
    response that parses to [null] throws a TypeError. *)
Theorem getMountAdvice_errors
    (JSON_parse : string -> Advisory.attempt Advisory.value)
    (API_KEY : option string)
    (response : Advisory.attempt (option string)) :
  (API_KEY = None \/ API_KEY = Some "" ->
   Advisory.getMountAdvice JSON_parse API_KEY response
     = inl (Advisory.ErrorMsg "API Key not found")) /\
  (forall e,
     Advisory.getClient API_KEY = inr tt -> response = inl e ->
     Advisory.getMountAdvice JSON_parse API_KEY response = inl e) /\
  (forall r e,
     Advisory.getClient API_KEY = inr tt -> response = inr r ->
     JSON_parse (Advisory.textOrEmptyObject r) = inl e ->
     Advisory.getMountAdvice JSON_parse API_KEY response = inl e) /\
  (forall r,
     Advisory.getClient API_KEY = inr tt -> response = inr r ->
     JSON_parse (Advisory.textOrEmptyObject r) = inr Advisory.null ->
     Advisory.getMountAdvice JSON_parse API_KEY response
       = inl Advisory.TypeError).
Proof.
  unfold Advisory.getMountAdvice.
  split; [|split; [|split]].
  - intros [-> | ->]; reflexivity.
  - intros e Hc ->. rewrite Hc. reflexivity.
  - intros r e Hc -> Hp. rewrite Hc. simpl. rewrite Hp. reflexivity.
  - intros r Hc -> Hp. rewrite Hc. simpl. rewrite Hp. reflexivity.
Qed.

Lemma getMountAdvice_errors_witness :
  Advisory.getMountAdvice Advisory.parseSample None (inr (Some "sample"))
    = inl (Advisory.ErrorMsg "API Key not found") /\
  Advisory.getMountAdvice Advisory.parseSample (Some "key")
    (inl (Advisory.OtherError "network"))
    = inl (Advisory.OtherError "network") /\
  Advisory.getMountAdvice
    (fun _ => inl (Advisory.OtherError "SyntaxError")) (Some "key")
    (inr (Some "oops"))
    = inl (Advisory.OtherError "SyntaxError") /\
  Advisory.getMountAdvice (fun _ => inr Advisory.null) (Some "key")
    (inr (Some "null"))
    = inl Advisory.TypeError.
Proof.
  split; [|split; [|split]].
  - apply (proj1 (getMountAdvice_errors _ _ _)). left. reflexivity.
  - apply (proj1 (proj2 (getMountAdvice_errors _ _ _))); reflexivity.
  - apply (proj1 (proj2 (proj2 (getMountAdvice_errors _ _ _)))
             (Some "oops")); reflexivity.
  - apply (proj2 (proj2 (proj2 (getMountAdvice_errors _ _ _)))
             (Some "null")); reflexivity.
Defined.

(** X19. A response without text, or with an empty text, is read as the
    text of the empty object: with a parser that reads it so, and a key,
    [getMountAdvice] throws "Invalid response from AI". *)
Theorem empty_text_is_invalid_response
    (JSON_parse : string -> Advisory.attempt Advisory.value)
    (API_KEY : option string)
    (response : Advisory.attempt (option string)) :
  Advisory.getClient API_KEY = inr tt ->
  response = inr None \/ response = inr (Some "") ->
  JSON_parse "{}" = inr (Advisory.object []) ->
  Advisory.getMountAdvice JSON_parse API_KEY response
    = inl (Advisory.ErrorMsg "Invalid response from AI").
Proof.
  intros Hc Hr Hp. unfold Advisory.getMountAdvice. rewrite Hc. simpl.
  destruct Hr as [-> | ->]; simpl; rewrite Hp; reflexivity.
Qed.

Lemma empty_text_is_invalid_response_witness :
  Advisory.getMountAdvice Advisory.parseEmptyObject (Some "key")
    (inr (Some ""))
    = inl (Advisory.ErrorMsg "Invalid response from AI").
Proof.
  apply empty_text_is_invalid_response.
  - reflexivity.
  - right. reflexivity.
  - reflexivity.
Defined.

(** X20. The values of an accepted response are copied without any
    check.  When [suggestedValues] is an object, each field of the
    [suggestedConfig] is what the object holds under the key,
    [undefined] for a key it lacks; when it is truthy but not an object
    (a number, a string, [true], an array) the response is accepted all
    the same and all six values are [undefined]. *)
Theorem suggested_values_unchecked
    (result : Advisory.value) (advice : Advisory.AIAdvice) :
  Advisory.adviceOfResult result = inr advice ->
  exists sv sc,
    Advisory.get result "suggestedValues" = inr sv /\
    Advisory.suggestedConfig advice = Some sc /\
    let field key :=
      match sv with
      | Advisory.object props => Advisory.lookup key props
      | _ => Advisory.undefined
      end in
    Advisory.photoBorder sc = field "photoBorder" /\
    Advisory.mountOffset sc = field "mountOffset" /\
    Advisory.top (Advisory.manualBorders sc) = field "topBorder" /\
    Advisory.bottom (Advisory.manualBorders sc) = field "bottomBorder" /\
    Advisory.left (Advisory.manualBorders sc) = field "sideBorder" /\
    Advisory.right (Advisory.manualBorders sc) = field "sideBorder".
Proof.
  unfold Advisory.adviceOfResult.
  destruct (Advisory.get result "suggestedValues") as [e | sv] eqn:Hsv;
    simpl; [discriminate|].
  destruct (Advisory.truthy sv) eqn:Ht; simpl; [|discriminate].
  destruct (Advisory.get result "suggestion") as [e | sg]; simpl;
    [discriminate|].
  destruct (Advisory.get result "reasoning") as [e | rs]; simpl;
    [discriminate|].
  intros H. exists sv.
  destruct sv; simpl in Ht, H; try discriminate;
    injection H as <-; eexists; simpl; repeat split; reflexivity.
Qed.

Lemma suggested_values_unchecked_witness :
  exists advice sc,
    Advisory.adviceOfResult numericSuggestedValues = inr advice /\
    Advisory.suggestedConfig advice = Some sc /\
    Advisory.photoBorder sc = Advisory.undefined /\
    Advisory.left (Advisory.manualBorders sc) = Advisory.undefined.
Proof.
  destruct (adviceOfResult_accepts numericSuggestedValues (Advisory.num 5)
              eq_refl eq_refl) as [advice Hadv].
  destruct (suggested_values_unchecked numericSuggestedValues advice Hadv)
    as (sv & sc & Hsv & Hsc & Hpb & _ & _ & _ & Hl & _).
  exists advice, sc. injection Hsv as <-.
  repeat split; assumption.
Defined.

(** ** The advisor component *)

(** X21. [handleAskAI] does nothing when the description is blank.
    Otherwise it ends with [loading] off; a returned advice is stored,
    clears the error and, having a [suggestedConfig], shows the Apply
    button; any thrown error, whatever its cause, shows the one message
    "Failed to get advice. Ensure API key is set." and keeps the advice
    (and its Apply button) that was on display before. *)
Theorem handleAskAI_outcome
    (trim : string -> string)
    (JSON_parse : string -> Advisory.attempt Advisory.value)
    (API_KEY : option string)
    (response : Advisory.attempt (option string))
    (st : AIAdvisor.State) :
  let st' := AIAdvisor.handleAskAI trim JSON_parse API_KEY response st in
  (trim (AIAdvisor.description st) = "" -> st' = st) /\
  (trim (AIAdvisor.description st) <> "" ->
   AIAdvisor.loading st' = false /\
   AIAdvisor.description st' = AIAdvisor.description st /\
   (forall a,
      Advisory.getMountAdvice JSON_parse API_KEY response = inr a ->
      AIAdvisor.advice st' = Some a /\
      AIAdvisor.error st' = None /\
      AIAdvisor.showsApplyButton st' = true) /\
   (forall e,
      Advisory.getMountAdvice JSON_parse API_KEY response = inl e ->
      AIAdvisor.error st'
        = Some "Failed to get advice. Ensure API key is set." /\
      AIAdvisor.advice st' = AIAdvisor.advice st /\
      AIAdvisor.showsApplyButton st' = AIAdvisor.showsApplyButton st)).
Proof.
  cbv zeta. unfold AIAdvisor.handleAskAI. split.
  - intros Hb. rewrite Hb. reflexivity.
  - intros Hb. apply String.eqb_neq in Hb. rewrite Hb.
    destruct (Advisory.getMountAdvice JSON_parse API_KEY response)
      as [e | a] eqn:Hg; simpl.
    + split; [reflexivity|]. split; [reflexivity|].
      split; [intros a' Ha'; discriminate Ha'|].
      intros e' _. repeat split.
    + split; [reflexivity|]. split; [reflexivity|].
      split; [|intros e' He'; discriminate He'].
      intros a' Ha'. injection Ha' as <-.
      split; [reflexivity|]. split; [reflexivity|].
      unfold AIAdvisor.showsApplyButton. simpl.
      assert (Hsc : exists sc, Advisory.suggestedConfig a = Some sc).
      { unfold Advisory.getMountAdvice in Hg.
        destruct (Advisory.getClient API_KEY) as [e | []]; simpl in Hg;
          [discriminate|].
        destruct response as [e | r]; simpl in Hg; [discriminate|].
        destruct (JSON_parse (Advisory.textOrEmptyObject r)) as [e | res];
          simpl in Hg; [discriminate|].
        destruct (adviceOfResult_inr res a Hg)
          as (sv & side & sc & _ & _ & _ & Hsc & _).
        exists sc. exact Hsc. }
      destruct Hsc as [sc ->]. reflexivity.
Qed.

Lemma handleAskAI_outcome_witness :
  (let st' := AIAdvisor.handleAskAI (fun s => s)
                Advisory.parseEmptyObject (Some "key") (inr None)
                typedState in
   AIAdvisor.error st'
     = Some "Failed to get advice. Ensure API key is set." /\
   AIAdvisor.advice st' = AIAdvisor.advice typedState) /\
  (let st' := AIAdvisor.handleAskAI (fun s => s)
                Advisory.parseSample (Some "key") (inr (Some "sample"))
                typedState in
   AIAdvisor.loading st' = false /\
   AIAdvisor.error st' = None /\
   AIAdvisor.showsApplyButton st' = true).
Proof.
  assert (Hne : (fun s : string => s) (AIAdvisor.description typedState) <> "")
    by discriminate.
  split.
  - destruct (handleAskAI_outcome (fun s => s) Advisory.parseEmptyObject
                (Some "key") (inr None) typedState) as (_ & H).
    destruct (H Hne) as (_ & _ & _ & Hfail).
    destruct (Hfail (Advisory.ErrorMsg "Invalid response from AI") eq_refl)
      as (He & Ha & _).
    split; assumption.
  - destruct (handleAskAI_outcome (fun s => s) Advisory.parseSample
                (Some "key") (inr (Some "sample")) typedState) as (_ & H).
    destruct (H Hne) as (Hl & _ & Hok & _).
    destruct (Advisory.getMountAdvice Advisory.parseSample (Some "key")
                (inr (Some "sample"))) as [e | a] eqn:Hg;
      [discriminate Hg|].
    destruct (Hok a eq_refl) as (_ & He & Hs).
    split; [exact Hl|]. split; assumption.
Defined.
